(** * LineEq: a line through two points, evaluated with output limits

    Shallow embedding of [Tools::LineEq] (lineEq.h, lineEq.cpp).

    The class computes on C++ [float].  The code is embedded once, over an
    interface [FloatArith] holding exactly the operations the two methods
    use, and the interface is instantiated twice:

    - [binary32]: IEEE-754 single precision, round to nearest even, taken
      from the Standard Library's [SpecFloat] with [prec = 24] and
      [emax = 128].  This is the arithmetic the program runs on; the
      statements about the program are made on this instance.  Each
      operation of the source is one correctly rounded binary32 operation
      (no excess precision, no contraction of [a * b + c] into a fused
      multiply-add).
    - [exact]: the rationals, for the statements the specification makes
      "under exact arithmetic".
*)

From Stdlib Require Import ZArith Bool Lia.
From Stdlib Require Import QArith Qabs Qfield.
From Stdlib Require Import Floats.SpecFloat.

(** ** The arithmetic the source uses *)

Class FloatArith (F : Type) : Type := {
  f_zero : F;                 (* the literal 0.0f *)
  f_eps  : F;                 (* the literal 1e-6f *)
  f_add  : F -> F -> F;       (* a + b *)
  f_sub  : F -> F -> F;       (* a - b *)
  f_mul  : F -> F -> F;       (* a * b *)
  f_div  : F -> F -> F;       (* a / b *)
  f_fabs : F -> F;            (* std::fabs(a) *)
  f_lt   : F -> F -> bool;    (* a < b *)
  f_gt   : F -> F -> bool     (* a > b *)
}.

(** ** IEEE-754 binary32 *)

Module B32.

Definition prec : Z := 24.
Definition emax : Z := 128.

Definition float32 : Type := spec_float.

(** [lit m e] is the binary32 value nearest to [m * 2^e]. *)
Definition lit (m e : Z) : float32 := binary_normalize prec emax m e false.

(** An integer literal such as [4.0f]. *)
Definition of_Z (n : Z) : float32 := lit n 0.

Definition zero : float32 := S754_zero false.

(** [1e-6f]: the binary32 value nearest to 10^-6, 8796093 * 2^-43
    (bit pattern 0x358637BD). *)
Definition eps : float32 := S754_finite false 8796093 (-43).

Definition add : float32 -> float32 -> float32 := SFadd prec emax.
Definition sub : float32 -> float32 -> float32 := SFsub prec emax.
Definition mul : float32 -> float32 -> float32 := SFmul prec emax.
Definition div : float32 -> float32 -> float32 := SFdiv prec emax.
Definition fabs : float32 -> float32 := SFabs.
Definition ltb : float32 -> float32 -> bool := SFltb.
Definition leb : float32 -> float32 -> bool := SFleb.

(** [a > b] of IEEE-754: true exactly when the comparison is "greater";
    false as soon as one side is a NaN. *)
Definition gtb (a b : float32) : bool :=
  match SFcompare a b with
  | Some Gt => true
  | _ => false
  end.

Definition is_nan (a : float32) : bool :=
  match a with
  | S754_nan => true
  | _ => false
  end.

(** Zeros and finite non-zero numbers: neither an infinity nor a NaN. *)
Definition is_finite (a : float32) : bool :=
  match a with
  | S754_zero _ | S754_finite _ _ _ => true
  | _ => false
  end.

(** A value of the format: mantissa and exponent in canonical form. *)
Definition valid (a : float32) : bool := valid_binary prec emax a.

End B32.

#[export] Instance binary32 : FloatArith B32.float32 := {
  f_zero := B32.zero;
  f_eps  := B32.eps;
  f_add  := B32.add;
  f_sub  := B32.sub;
  f_mul  := B32.mul;
  f_div  := B32.div;
  f_fabs := B32.fabs;
  f_lt   := B32.ltb;
  f_gt   := B32.gtb
}.

(** ** Exact arithmetic on the rationals *)

Module Exact.

(** The literal [1e-6f] denotes the float 8796093 * 2^-43; that value, as
    a rational. *)
Definition eps : Q := 8796093 # 8796093022208.

Definition ltb (a b : Q) : bool := negb (Qle_bool b a).
Definition gtb (a b : Q) : bool := negb (Qle_bool a b).

End Exact.

#[export] Instance exact : FloatArith Q := {
  f_zero := 0%Q;
  f_eps  := Exact.eps;
  f_add  := Qplus;
  f_sub  := Qminus;
  f_mul  := Qmult;
  f_div  := Qdiv;
  f_fabs := Qabs;
  f_lt   := Exact.ltb;
  f_gt   := Exact.gtb
}.

(** ** The class [Tools::LineEq] *)

Section LineEq.

Context {F : Type} {A : FloatArith F}.

(** [point_t] *)
Record point_t : Type := mkPoint {
  x : F;
  y : F
}.

(** [lineEq_t] *)
Record lineEq_t : Type := mkLineEq {
  slope : F;
  y_intercept : F;
  min_output : F;
  max_output : F;
  isVertical : bool
}.

(** The assignments to the fields of the member [_lineEq]. *)
Definition set_slope (l : lineEq_t) (v : F) : lineEq_t :=
  mkLineEq v (y_intercept l) (min_output l) (max_output l) (isVertical l).
Definition set_y_intercept (l : lineEq_t) (v : F) : lineEq_t :=
  mkLineEq (slope l) v (min_output l) (max_output l) (isVertical l).
Definition set_min_output (l : lineEq_t) (v : F) : lineEq_t :=
  mkLineEq (slope l) (y_intercept l) v (max_output l) (isVertical l).
Definition set_max_output (l : lineEq_t) (v : F) : lineEq_t :=
  mkLineEq (slope l) (y_intercept l) (min_output l) v (isVertical l).
Definition set_isVertical (l : lineEq_t) (v : bool) : lineEq_t :=
  mkLineEq (slope l) (y_intercept l) (min_output l) (max_output l) v.

(** The member initialiser [_lineEq = { 0.0f, 0.0f, 0.0f, 0.0f, false }]:
    the state of a default-constructed object. *)
Definition _lineEq : lineEq_t := mkLineEq f_zero f_zero f_zero f_zero false.

(** [void LineEq::create(point_t p1, point_t p2, float minOut, float maxOut)]:
    the object's state before the call goes in, the state after it comes
    out. *)
Definition create (l : lineEq_t) (p1 p2 : point_t) (minOut maxOut : F)
  : lineEq_t :=
  let l := set_min_output l minOut in
  let l := set_max_output l maxOut in
  let dx := f_sub (x p2) (x p1) in
  let dy := f_sub (y p2) (y p1) in
  if f_lt (f_fabs dx) f_eps then
    let l := set_isVertical l true in
    let l := set_slope l f_zero in
    set_y_intercept l (x p1)
  else
    let l := set_isVertical l false in
    let l := set_slope l (f_div dy dx) in
    set_y_intercept l (f_sub (y p1) (f_mul (slope l) (x p1))).

(** [float LineEq::evaluate(float x)]; the state is only read.  The local
    [y] of the source is [y0], assigned three times; the input is [x0]. *)
Definition evaluate (l : lineEq_t) (x0 : F) : F :=
  let y0 := f_zero in
  let y0 :=
    if negb (isVertical l) then f_add (f_mul (slope l) x0) (y_intercept l)
    else y_intercept l in
  let y0 :=
    if f_lt y0 (min_output l) then min_output l
    else if f_gt y0 (max_output l) then max_output l
    else y0 in
  y0.

(** The states an object can be in: freshly constructed, or after any
    number of calls of [create]. *)
Inductive reachable : lineEq_t -> Prop :=
| reach_new : reachable _lineEq
| reach_create : forall l p1 p2 minOut maxOut,
    reachable l -> reachable (create l p1 p2 minOut maxOut).

End LineEq.

Arguments point_t F : clear implicits.
Arguments lineEq_t F : clear implicits.


(** ** What the specification calls the unclamped value and the clamp *)

Section SpecWords.

Context {F : Type} {A : FloatArith F}.

(** "If not vertical: raw = slope * x + intercept.  If vertical:
    raw = intercept." *)
Definition raw_value (l : lineEq_t F) (x0 : F) : F :=
  if isVertical l then y_intercept l
  else f_add (f_mul (slope l) x0) (y_intercept l).

(** "if raw < minOutput, result = minOutput; else if raw > maxOutput,
    result = maxOutput; else result = raw." *)
Definition clamp_spec (lo hi raw : F) : F :=
  if f_lt raw lo then lo
  else if f_gt raw hi then hi
  else raw.

End SpecWords.

(** ** Concrete configurations *)

Module Scenario.

Import B32.

Definition pt (a b : float32) : point_t float32 := mkPoint a b.

(** The 4-20 mA scaling of the README:
    [create({4, -40}, {20, 85}, -40, 85)] on a fresh object. *)
Definition scale : lineEq_t float32 :=
  create _lineEq (pt (of_Z 4) (of_Z (-40))) (pt (of_Z 20) (of_Z 85))
    (of_Z (-40)) (of_Z 85).

(** A vertical line: [create({5, 1}, {5, 9}, 0, 100)]. *)
Definition upright : lineEq_t float32 :=
  create _lineEq (pt (of_Z 5) (of_Z 1)) (pt (of_Z 5) (of_Z 9))
    (of_Z 0) (of_Z 100).

(** A line so steep that its slope overflows:
    [create({0, 0}, {0.5, 2^127}, 0, 10)]; every argument is a finite
    float. *)
Definition steep : lineEq_t float32 :=
  create _lineEq (pt (of_Z 0) (of_Z 0)) (pt (lit 1 (-1)) (lit 1 127))
    (of_Z 0) (of_Z 10).

(** The same steep line with limits wide enough for both ordinates:
    [create({0, 0}, {0.5, 2^127}, 0, 2^127)]. *)
Definition steep_wide : lineEq_t float32 :=
  create _lineEq (pt (of_Z 0) (of_Z 0)) (pt (lit 1 (-1)) (lit 1 127))
    (of_Z 0) (lit 1 127).

(** Two identical points at +infinity:
    [create({+inf, 1}, {+inf, 1}, 0, 10)]. *)
Definition twin_infinite : lineEq_t float32 :=
  create _lineEq (pt (S754_infinity false) (of_Z 1))
    (pt (S754_infinity false) (of_Z 1)) (of_Z 0) (of_Z 10).

(** Two points whose abscissas differ by exactly [1e-6f]. *)
Definition borderline : lineEq_t float32 :=
  create _lineEq (pt (of_Z 0) (of_Z 0)) (pt eps (of_Z 1))
    (of_Z 0) (of_Z 10).

(** Inverted limits: [create({0, 0}, {1, 1}, 10, 0)]. *)
Definition inverted : lineEq_t float32 :=
  create _lineEq (pt (of_Z 0) (of_Z 0)) (pt (of_Z 1) (of_Z 1))
    (of_Z 10) (of_Z 0).

(** A slope that binary32 cannot hold exactly, 1/6:
    [create({1, 0}, {7, 1}, -10, 10)]. *)
Definition sixth : lineEq_t float32 :=
  create _lineEq (pt (of_Z 1) (of_Z 0)) (pt (of_Z 7) (of_Z 1))
    (of_Z (-10)) (of_Z 10).

(** The same 4-20 mA scaling in exact arithmetic. *)
Definition scale_exact : lineEq_t Q :=
  create _lineEq (mkPoint 4 (-40)) (mkPoint 20 85) (-40) 85.

End Scenario.

(** ** The 4-20 mA example program of the README *)

Module Readme.

Import B32.

(** [float adc_to_mA(uint16_t adc_value, float adc_ref_voltage,
    float resistor)].  The count is a [uint16_t]; its conversion to
    [float] in [adc_value / 4095.0f] is exact. *)
Definition adc_to_mA (adc_value : Z) (adc_ref_voltage resistor : float32)
  : float32 :=
  let voltage := mul (div (of_Z adc_value) (of_Z 4095)) adc_ref_voltage in
  div voltage resistor.

(** The literal [3.3f]: 33 and 10 are floats, so their correctly rounded
    quotient is the float nearest to 3.3. *)
Definition ref_voltage : float32 := div (of_Z 33) (of_Z 10).

(** The literal [165.0f]. *)
Definition sense_resistor : float32 := of_Z 165.

(** [main]: [current = adc_to_mA(adc_raw, 3.3f, 165.0f)], then
    [temperature = scale.evaluate(current)] on the line
    [scale.create({4, -40}, {20, 85}, -40, 85)]. *)
Definition temperature (adc_raw : Z) : float32 :=
  let current := adc_to_mA adc_raw ref_voltage sense_resistor in
  evaluate Scenario.scale current.

(** A count reads below 4 mA and below the lower limit of the line. *)
Definition reads_low (adc_raw : Z) : bool :=
  let current := adc_to_mA adc_raw ref_voltage sense_resistor in
  ltb current (of_Z 4)
  && ltb (raw_value Scenario.scale current) (min_output Scenario.scale).

(** [reads_low] on the counts [n], [n + 1], ..., [n + fuel - 1]. *)
Fixpoint reads_low_from (fuel : nat) (n : Z) : bool :=
  match fuel with
  | O => true
  | S fuel' => reads_low n && reads_low_from fuel' (n + 1)
  end.

End Readme.

(** ** Order facts of binary32 comparison *)

Module B32Facts.

Import B32.

Lemma compare_antisym (a b : float32) :
  SFcompare a b = option_map CompOpp (SFcompare b a).
Proof.
  destruct a as [sa|sa| |sa ma ea], b as [sb|sb| |sb mb eb]; simpl;
    try reflexivity;
    try (destruct sa; reflexivity);
    try (destruct sb; reflexivity);
    try (destruct sa, sb; reflexivity).
  destruct sa, sb; simpl; try reflexivity;
    rewrite (Z.compare_antisym ea eb);
    destruct (ea ?= eb)%Z; simpl; try reflexivity;
    rewrite ?CompOpp_involutive, ?Pos.compare_cont_antisym; reflexivity.
Qed.

Lemma compare_some (a b : float32) :
  is_nan a = false -> is_nan b = false -> exists c, SFcompare a b = Some c.
Proof.
  destruct a, b; simpl; intros Ha Hb; try discriminate; eauto.
Qed.

Lemma compare_none_nan (a b : float32) :
  SFcompare a b = None -> is_nan a = true \/ is_nan b = true.
Proof.
  destruct a, b; simpl; intros H; try discriminate; auto.
Qed.

Lemma leb_not_nan (a b : float32) :
  leb a b = true -> is_nan a = false /\ is_nan b = false.
Proof.
  unfold leb, SFleb. destruct a, b; simpl; intros H; try discriminate; auto.
Qed.

Lemma leb_refl (a : float32) : is_nan a = false -> leb a a = true.
Proof.
  unfold leb, SFleb.
  destruct a as [s|s| |s m e]; simpl; intros H; try discriminate;
    try reflexivity; try (destruct s; reflexivity).
  destruct s; rewrite Z.compare_refl, Pos.compare_cont_refl; reflexivity.
Qed.

(** [b <= a] excludes [a < b]. *)
Lemma leb_ltb_false (a b : float32) : leb b a = true -> ltb a b = false.
Proof.
  unfold leb, ltb, SFleb, SFltb. rewrite (compare_antisym a b).
  destruct (SFcompare b a) as [[ | | ]|]; simpl; congruence.
Qed.

(** [a <= b] excludes [a > b]. *)
Lemma leb_gtb_false (a b : float32) : leb a b = true -> gtb a b = false.
Proof.
  unfold leb, gtb, SFleb.
  destruct (SFcompare a b) as [[ | | ]|]; simpl; congruence.
Qed.

(** On numbers, "not less" is "greater or equal". *)
Lemma ltb_false_leb (a b : float32) :
  is_nan a = false -> is_nan b = false -> ltb a b = false -> leb b a = true.
Proof.
  intros Ha Hb. unfold leb, ltb, SFleb, SFltb.
  rewrite (compare_antisym b a).
  destruct (compare_some a b Ha Hb) as [c ->].
  destruct c; simpl; congruence.
Qed.

(** On numbers, "not greater" is "less or equal". *)
Lemma gtb_false_leb (a b : float32) :
  is_nan a = false -> is_nan b = false -> gtb a b = false -> leb a b = true.
Proof.
  intros Ha Hb. unfold leb, gtb, SFleb.
  destruct (compare_some a b Ha Hb) as [c ->].
  destruct c; simpl; congruence.
Qed.

(** A NaN is neither less nor greater than anything. *)
Lemma nan_ltb (b : float32) : ltb S754_nan b = false.
Proof. reflexivity. Qed.

Lemma nan_gtb (b : float32) : gtb S754_nan b = false.
Proof. reflexivity. Qed.

(** The literal [1e-6f] is the correctly rounded quotient of 1 by 10^6,
    and a value of the format. *)
Lemma eps_nearest : eps = div (of_Z 1) (of_Z 1000000) /\ valid eps = true.
Proof. split; vm_compute; reflexivity. Qed.

End B32Facts.

(** ** The two methods, field by field *)

Section Methods.

Context {F : Type} {A : FloatArith F}.

Variables (l : lineEq_t F) (p1 p2 : point_t F) (minOut maxOut : F).

(** [evaluate] computes the unclamped value, then clamps it. *)
Lemma evaluate_unfold (x0 : F) :
  evaluate l x0 = clamp_spec (min_output l) (max_output l) (raw_value l x0).
Proof.
  unfold evaluate, clamp_spec, raw_value.
  destruct (isVertical l); reflexivity.
Qed.

Lemma create_min_output : min_output (create l p1 p2 minOut maxOut) = minOut.
Proof. unfold create. destruct (f_lt _ _); reflexivity. Qed.

Lemma create_max_output : max_output (create l p1 p2 minOut maxOut) = maxOut.
Proof. unfold create. destruct (f_lt _ _); reflexivity. Qed.

Lemma create_isVertical :
  isVertical (create l p1 p2 minOut maxOut)
  = f_lt (f_fabs (f_sub (x p2) (x p1))) f_eps.
Proof. unfold create. destruct (f_lt _ _); reflexivity. Qed.

Lemma create_vertical :
  f_lt (f_fabs (f_sub (x p2) (x p1))) f_eps = true ->
  create l p1 p2 minOut maxOut = mkLineEq f_zero (x p1) minOut maxOut true.
Proof. unfold create. intros ->. reflexivity. Qed.

Lemma create_sloped :
  f_lt (f_fabs (f_sub (x p2) (x p1))) f_eps = false ->
  create l p1 p2 minOut maxOut
  = let m := f_div (f_sub (y p2) (y p1)) (f_sub (x p2) (x p1)) in
    mkLineEq m (f_sub (y p1) (f_mul m (x p1))) minOut maxOut false.
Proof. unfold create. intros ->. reflexivity. Qed.

(** An unclamped value that fails both tests is returned as it is. *)
Lemma evaluate_raw_inside (x0 : F) :
  f_lt (raw_value l x0) (min_output l) = false ->
  f_gt (raw_value l x0) (max_output l) = false ->
  evaluate l x0 = raw_value l x0.
Proof.
  intros Hlo Hhi. rewrite evaluate_unfold. unfold clamp_spec.
  rewrite Hlo, Hhi. reflexivity.
Qed.

End Methods.

(** ** Clamping *)

Import B32 B32Facts.

(** The flag set by [create], on binary32. *)
Lemma create_isVertical_b32 (l : lineEq_t float32) (p1 p2 : point_t float32)
    (minOut maxOut : float32) :
  isVertical (create l p1 p2 minOut maxOut)
  = ltb (fabs (sub (x p2) (x p1))) eps.
Proof. exact (create_isVertical (A:=binary32) l p1 p2 minOut maxOut). Qed.

(** The clamp of the source keeps a number between ordered limits. *)
Lemma clamp_spec_within (lo hi raw : float32) :
  leb lo hi = true -> is_nan raw = false ->
  leb lo (clamp_spec lo hi raw) = true /\ leb (clamp_spec lo hi raw) hi = true.
Proof.
  intros Hb Hn. destruct (leb_not_nan _ _ Hb) as [Hlo Hhi].
  unfold clamp_spec; simpl.
  destruct (ltb raw lo) eqn:Hlt.
  - split; [apply leb_refl; assumption | assumption].
  - destruct (gtb raw hi) eqn:Hgt.
    + split; [assumption | apply leb_refl; assumption].
    + split; [apply ltb_false_leb | apply gtb_false_leb]; assumption.
Qed.

(** The clamp of the source lets a NaN through. *)
Lemma clamp_spec_nan (lo hi : float32) : clamp_spec lo hi S754_nan = S754_nan.
Proof. reflexivity. Qed.

(** ** Rounding never produces a NaN *)

Lemma shr_1_nonneg (mrs : shr_record) :
  (0 <= shr_m mrs)%Z -> (0 <= shr_m (shr_1 mrs))%Z.
Proof.
  destruct mrs as [m r s]. destruct m as [ | p | p]; simpl; intros H.
  - lia.
  - destruct p; simpl; lia.
  - lia.
Qed.

Lemma iter_pos_preserves {T : Type} (P : T -> Prop) (f : T -> T) :
  (forall a, P a -> P (f a)) ->
  forall (p : positive) (a : T), P a -> P (iter_pos f p a).
Proof.
  intros Hf. induction p as [p IH | p IH | ]; simpl; intros a Ha; auto.
Qed.

Lemma shr_nonneg (mrs : shr_record) (e n : Z) :
  (0 <= shr_m mrs)%Z -> (0 <= shr_m (fst (shr mrs e n)))%Z.
Proof.
  intros H. destruct n as [ | p | p]; simpl; try exact H.
  apply (iter_pos_preserves (fun r => (0 <= shr_m r)%Z)); [ | exact H].
  exact shr_1_nonneg.
Qed.

Lemma shr_fexp_nonneg (m e : Z) (lx : location) :
  (0 <= m)%Z -> (0 <= shr_m (fst (shr_fexp prec emax m e lx)))%Z.
Proof.
  intros H. unfold shr_fexp. apply shr_nonneg.
  destruct lx as [ | [ | | ]]; exact H.
Qed.

Lemma round_nearest_even_nonneg (m : Z) (lx : location) :
  (0 <= m)%Z -> (0 <= round_nearest_even m lx)%Z.
Proof.
  intros H. destruct lx as [ | [ | | ]]; simpl; try exact H; try lia.
  destruct (Z.even m); lia.
Qed.

Lemma binary_round_aux_number (s : bool) (m e : Z) (lx : location) :
  (0 <= m)%Z -> is_nan (binary_round_aux prec emax s m e lx) = false.
Proof.
  intros H. unfold binary_round_aux.
  pose proof (shr_fexp_nonneg m e lx H) as H1.
  destruct (shr_fexp prec emax m e lx) as [mrs1 e1]. simpl in H1.
  pose proof (shr_fexp_nonneg _ e1 loc_Exact
                (round_nearest_even_nonneg _ (loc_of_shr_record mrs1) H1)) as H2.
  destruct (shr_fexp prec emax _ e1 loc_Exact) as [mrs2 e2]. simpl in H2.
  destruct (shr_m mrs2) as [ | p | p].
  - reflexivity.
  - destruct (e2 <=? emax - prec)%Z; reflexivity.
  - lia.
Qed.

Lemma binary_normalize_number (m e : Z) (s : bool) :
  is_nan (binary_normalize prec emax m e s) = false.
Proof.
  destruct m as [ | p | p]; simpl; try reflexivity;
    unfold binary_round;
    destruct (shl_align _ _ _) as [mz ez];
    apply binary_round_aux_number; lia.
Qed.

(** The product of two finite floats is a number (possibly infinite). *)
Lemma mul_finite_number (a b : float32) :
  is_finite a = true -> is_finite b = true -> is_nan (mul a b) = false.
Proof.
  destruct a as [sa|sa| |sa ma ea], b as [sb|sb| |sb mb eb]; simpl;
    intros Ha Hb; try discriminate; try reflexivity.
  apply binary_round_aux_number. lia.
Qed.

(** A number plus a finite float is a number. *)
Lemma add_finite_number (a b : float32) :
  is_nan a = false -> is_finite b = true -> is_nan (add a b) = false.
Proof.
  destruct a as [sa|sa| |sa ma ea], b as [sb|sb| |sb mb eb]; simpl;
    intros Ha Hb; try discriminate; try reflexivity.
  - destruct sa, sb; reflexivity.
  - apply binary_normalize_number.
Qed.

(** With a finite slope, a finite intercept and a finite input the
    unclamped value is a number. *)
Lemma raw_value_number (l : lineEq_t float32) (x0 : float32) :
  is_finite (slope l) = true -> is_finite (y_intercept l) = true ->
  is_finite x0 = true -> is_nan (raw_value l x0) = false.
Proof.
  intros Hs Hi Hx. unfold raw_value. destruct (isVertical l).
  - destruct (y_intercept l); try discriminate Hi; reflexivity.
  - apply add_finite_number; [ | exact Hi].
    apply mul_finite_number; assumption.
Qed.

(** X18: with a finite slope, a finite intercept and ordered limits,
    [evaluate] lies within the limits for every finite input. *)
Lemma evaluate_finite_within_limits (l : lineEq_t float32) (x0 : float32) :
  is_finite (slope l) = true -> is_finite (y_intercept l) = true ->
  is_finite x0 = true ->
  leb (min_output l) (max_output l) = true ->
  leb (min_output l) (evaluate l x0) = true /\
  leb (evaluate l x0) (max_output l) = true.
Proof.
  intros Hs Hi Hx Hb. rewrite evaluate_unfold.
  apply clamp_spec_within; [exact Hb | ].
  apply raw_value_number; assumption.
Qed.

(** C1, as the code has it: in every state whose limits are ordered
    ([min_output <= max_output]) and for every input [x0] whose unclamped
    value is a number (not a NaN), [evaluate] returns a value [r] with
    [min_output <= r <= max_output]. *)
Theorem evaluate_within_limits (l : lineEq_t float32) (x0 : float32)
    (Hb : leb (min_output l) (max_output l) = true)
    (Hn : is_nan (raw_value l x0) = false) :
  leb (min_output l) (evaluate l x0) = true /\
  leb (evaluate l x0) (max_output l) = true.
Proof.
  rewrite evaluate_unfold. apply clamp_spec_within; assumption.
Qed.

(** At 3 mA the 4-20 mA scaling is inside its limits. *)
Lemma evaluate_within_limits_scale :
  leb (min_output Scenario.scale) (evaluate Scenario.scale (of_Z 3)) = true /\
  leb (evaluate Scenario.scale (of_Z 3)) (max_output Scenario.scale) = true.
Proof.
  apply (evaluate_within_limits Scenario.scale (of_Z 3)); reflexivity.
Defined.

(** C1 as stated fails: [create({0, 0}, {0.5, 2^127}, 0, 10)] has ordered
    limits and finite arguments only, its slope overflows to +infinity,
    its intercept [0 - inf * 0] is a NaN, and [evaluate(1.0)] returns that
    NaN, which lies within no limits. *)
Lemma evaluate_steep_outside_limits :
  (valid (lit 1 (-1)) && is_finite (lit 1 (-1))
   && valid (lit 1 127) && is_finite (lit 1 127)
   && valid (of_Z 10) && is_finite (of_Z 10)
   && valid (of_Z 1) && is_finite (of_Z 1) = true) /\
  leb (min_output Scenario.steep) (max_output Scenario.steep) = true /\
  slope Scenario.steep = S754_infinity false /\
  y_intercept Scenario.steep = S754_nan /\
  evaluate Scenario.steep (of_Z 1) = S754_nan /\
  ~ (leb (min_output Scenario.steep) (evaluate Scenario.steep (of_Z 1)) = true /\
     leb (evaluate Scenario.steep (of_Z 1)) (max_output Scenario.steep) = true).
Proof.
  repeat split; try (vm_compute; reflexivity).
  intros [H _]. vm_compute in H. discriminate H.
Qed.

(** When the unclamped value is a NaN, so is the result. *)
Lemma evaluate_nan (l : lineEq_t float32) (x0 : float32) :
  is_nan (raw_value l x0) = true -> evaluate l x0 = S754_nan.
Proof.
  rewrite evaluate_unfold.
  destruct (raw_value l x0); simpl; intros H; try discriminate H.
  reflexivity.
Qed.

(** C6: in every state, inverted limits included, and for every input,
    [evaluate] returns [min_output] if the unclamped value is below it;
    otherwise [max_output] if the unclamped value is above it; otherwise
    the unclamped value.  The second test is made on the unclamped value
    and only when the first one failed. *)
Theorem evaluate_clamp_order (l : lineEq_t float32) (x0 : float32) :
  evaluate l x0 =
    if ltb (raw_value l x0) (min_output l) then min_output l
    else if gtb (raw_value l x0) (max_output l) then max_output l
    else raw_value l x0.
Proof.
  unfold evaluate, raw_value; simpl.
  destruct (isVertical l); reflexivity.
Qed.

(** With inverted limits [10, 0] on the line [y = x]: at 5 the first test
    fires and the result is the lower limit 10, at 20 only the second
    fires and the result is the upper limit 0. *)
Lemma evaluate_inverted_limits :
  raw_value Scenario.inverted (of_Z 5) = of_Z 5 /\
  evaluate Scenario.inverted (of_Z 5) = of_Z 10 /\
  raw_value Scenario.inverted (of_Z 20) = of_Z 20 /\
  evaluate Scenario.inverted (of_Z 20) = of_Z 0.
Proof. repeat split; vm_compute; reflexivity. Qed.

(** ** The freshly constructed object *)

(** C8, as the code has it: a default-constructed object has slope 0,
    intercept 0, both limits 0 and the vertical flag cleared, and before
    any call of [create], [evaluate] returns 0 for every finite input. *)
Theorem default_state_evaluate_zero (x0 : float32)
    (Hf : is_finite x0 = true) :
  slope _lineEq = zero /\ y_intercept _lineEq = zero /\
  min_output _lineEq = zero /\ max_output _lineEq = zero /\
  isVertical (@_lineEq float32 _) = false /\
  evaluate _lineEq x0 = zero.
Proof.
  repeat split.
  destruct x0 as [s|s| |s m e]; try discriminate Hf; destruct s; reflexivity.
Qed.

(** In particular [evaluate(42.0)] is [0.0] on a fresh object. *)
Lemma default_state_evaluate_42 :
  is_finite (of_Z 42) = true /\ evaluate _lineEq (of_Z 42) = zero.
Proof.
  split; [reflexivity | ].
  apply (default_state_evaluate_zero (of_Z 42)). reflexivity.
Defined.

(** C8 as stated ("for every x") fails at the float +infinity: [0 * inf]
    is a NaN, no test of the clamp fires on a NaN, and the fresh object
    returns it; a NaN does not compare equal to 0. *)
Lemma default_state_evaluate_infinity :
  valid (S754_infinity false) = true /\
  evaluate _lineEq (S754_infinity false) = S754_nan /\
  SFeqb (evaluate _lineEq (S754_infinity false)) zero = false.
Proof. repeat split. Qed.

(** ** [create] *)

(** C2: when [|x2 - x1| >= 1e-6f], [create] stores
    [slope = (y2 - y1) / (x2 - x1)] and [intercept = y1 - slope * x1], and
    for every input whose unclamped value lies within the limits,
    [evaluate] returns [slope * x + intercept].  Every operation is the
    binary32 one of the source. *)
Theorem create_evaluate_linear (l : lineEq_t float32) (p1 p2 : point_t float32)
    (minOut maxOut x0 : float32)
    (Hdx : leb eps (fabs (sub (x p2) (x p1))) = true) :
  slope (create l p1 p2 minOut maxOut)
    = div (sub (y p2) (y p1)) (sub (x p2) (x p1)) /\
  y_intercept (create l p1 p2 minOut maxOut)
    = sub (y p1) (mul (slope (create l p1 p2 minOut maxOut)) (x p1)) /\
  (leb minOut (add (mul (slope (create l p1 p2 minOut maxOut)) x0)
                   (y_intercept (create l p1 p2 minOut maxOut))) = true ->
   leb (add (mul (slope (create l p1 p2 minOut maxOut)) x0)
            (y_intercept (create l p1 p2 minOut maxOut))) maxOut = true ->
   evaluate (create l p1 p2 minOut maxOut) x0
     = add (mul (slope (create l p1 p2 minOut maxOut)) x0)
           (y_intercept (create l p1 p2 minOut maxOut))).
Proof.
  apply leb_ltb_false in Hdx.
  rewrite (create_sloped (A:=binary32) l p1 p2 minOut maxOut Hdx).
  cbn zeta.
  split; [reflexivity | split; [reflexivity | ]].
  intros Hlo Hhi.
  apply leb_ltb_false in Hlo. apply leb_gtb_false in Hhi.
  apply (evaluate_raw_inside (A:=binary32)); [exact Hlo | exact Hhi].
Qed.

(** The 4-20 mA scaling at 12 mA: slope 125/16, intercept -285/4,
    result 45/2. *)
Lemma create_evaluate_linear_scale :
  slope Scenario.scale = lit 125 (-4) /\
  y_intercept Scenario.scale = lit (-285) (-2) /\
  evaluate Scenario.scale (of_Z 12) = lit 45 (-1).
Proof.
  destruct (create_evaluate_linear _lineEq
              (Scenario.pt (of_Z 4) (of_Z (-40)))
              (Scenario.pt (of_Z 20) (of_Z 85))
              (of_Z (-40)) (of_Z 85) (of_Z 12) eq_refl) as (Hs & Hi & He).
  split; [exact Hs | split; [exact Hi | ]].
  exact (He eq_refl eq_refl).
Defined.

(** C3: [create] sets the vertical flag exactly when
    [|p2.x - p1.x| < 1e-6f], a strict test; it then sets the slope to 0 and
    stores [p1.x] in the intercept field; a difference of exactly [1e-6f]
    gives a line that is not vertical. *)
Theorem create_vertical_iff (l : lineEq_t float32) (p1 p2 : point_t float32)
    (minOut maxOut : float32) :
  isVertical (create l p1 p2 minOut maxOut)
    = ltb (fabs (sub (x p2) (x p1))) eps /\
  (isVertical (create l p1 p2 minOut maxOut) = true ->
   slope (create l p1 p2 minOut maxOut) = zero /\
   y_intercept (create l p1 p2 minOut maxOut) = x p1) /\
  (fabs (sub (x p2) (x p1)) = eps ->
   isVertical (create l p1 p2 minOut maxOut) = false).
Proof.
  split; [apply create_isVertical_b32 | split].
  - rewrite create_isVertical_b32. intros Hv.
    rewrite (create_vertical (A:=binary32) l p1 p2 minOut maxOut Hv). split; reflexivity.
  - intros He. rewrite create_isVertical_b32, He. reflexivity.
Qed.

(** [create({5, 1}, {5, 9}, 0, 100)] is vertical with slope 0 and
    intercept 5; two abscissas exactly [1e-6f] apart are not vertical. *)
Lemma create_vertical_iff_scenarios :
  (isVertical Scenario.upright = true /\
   slope Scenario.upright = zero /\
   y_intercept Scenario.upright = of_Z 5) /\
  (fabs (sub eps (of_Z 0)) = eps /\ isVertical Scenario.borderline = false).
Proof.
  split.
  - destruct (create_vertical_iff _lineEq
                (Scenario.pt (of_Z 5) (of_Z 1)) (Scenario.pt (of_Z 5) (of_Z 9))
                (of_Z 0) (of_Z 100)) as (_ & Hv & _).
    split; [reflexivity | exact (Hv eq_refl)].
  - destruct (create_vertical_iff _lineEq
                (Scenario.pt (of_Z 0) (of_Z 0)) (Scenario.pt eps (of_Z 1))
                (of_Z 0) (of_Z 10)) as (_ & _ & Hb).
    split; [reflexivity | exact (Hb eq_refl)].
Defined.

(** ** Vertical lines *)

(** A finite float minus itself is +0. *)
Lemma sub_diag_finite (a : float32) : is_finite a = true -> sub a a = zero.
Proof.
  destruct a as [s|s| |s m e]; intros H; try discriminate H.
  - destruct s; reflexivity.
  - unfold sub, SFsub. rewrite Z.sub_diag. reflexivity.
Qed.

(** Two points with the same finite abscissa give a vertical line. *)
Lemma same_abscissa_vertical (l : lineEq_t float32) (p1 p2 : point_t float32)
    (minOut maxOut : float32) :
  is_finite (x p1) = true -> x p2 = x p1 ->
  isVertical (create l p1 p2 minOut maxOut) = true.
Proof.
  intros Hf He. rewrite create_isVertical_b32, He. cbn.
  rewrite (sub_diag_finite _ Hf). reflexivity.
Qed.

(** C4, as the code has it: after a [create] that classified the line
    vertical, which includes two identical points of finite abscissa,
    [evaluate] returns for every input the same value: [p1.x] passed
    through the clamp of the limits. *)
Theorem vertical_evaluate_constant (l : lineEq_t float32)
    (p1 p2 : point_t float32) (minOut maxOut : float32)
    (Hv : ltb (fabs (sub (x p2) (x p1))) eps = true \/
          (p2 = p1 /\ is_finite (x p1) = true)) :
  isVertical (create l p1 p2 minOut maxOut) = true /\
  (forall x0, evaluate (create l p1 p2 minOut maxOut) x0
              = clamp_spec minOut maxOut (x p1)) /\
  (forall x0 x1, evaluate (create l p1 p2 minOut maxOut) x0
                 = evaluate (create l p1 p2 minOut maxOut) x1).
Proof.
  assert (Hflag : isVertical (create l p1 p2 minOut maxOut) = true).
  { destruct Hv as [Hv | [He Hf]].
    - rewrite create_isVertical_b32. exact Hv.
    - apply same_abscissa_vertical; [exact Hf | rewrite He; reflexivity]. }
  assert (Hc : forall x0, evaluate (create l p1 p2 minOut maxOut) x0
                          = clamp_spec minOut maxOut (x p1)).
  { intros x0. rewrite create_isVertical_b32 in Hflag.
    rewrite (create_vertical (A:=binary32) l p1 p2 minOut maxOut Hflag). reflexivity. }
  split; [exact Hflag | split; [exact Hc | ]].
  intros x0 x1. rewrite (Hc x0), (Hc x1). reflexivity.
Qed.

(** [create({5, 1}, {5, 9}, 0, 100)]: [evaluate(0.0)] and
    [evaluate(999.0)] are both 5. *)
Lemma vertical_evaluate_constant_upright :
  ltb (fabs (sub (of_Z 5) (of_Z 5))) eps = true /\
  evaluate Scenario.upright (of_Z 0) = of_Z 5 /\
  evaluate Scenario.upright (of_Z 999) = of_Z 5.
Proof.
  destruct (vertical_evaluate_constant _lineEq
              (Scenario.pt (of_Z 5) (of_Z 1)) (Scenario.pt (of_Z 5) (of_Z 9))
              (of_Z 0) (of_Z 100) (or_introl eq_refl)) as (_ & Hc & _).
  split; [reflexivity | split].
  - exact (Hc (of_Z 0)).
  - exact (Hc (of_Z 999)).
Defined.

(** C4 as stated ("including two identical points") fails for two
    identical points at +infinity: [inf - inf] is a NaN, the test
    [fabs(dx) < 1e-6f] is false on it, the line is not classified
    vertical, its slope and intercept are NaNs, and [evaluate(5.0)]
    returns a NaN where the clamp of [p1.x] between 0 and 10 is 10. *)
Lemma twin_infinite_not_vertical :
  valid (S754_infinity false) = true /\
  isVertical Scenario.twin_infinite = false /\
  evaluate Scenario.twin_infinite (of_Z 5) = S754_nan /\
  clamp_spec (of_Z 0) (of_Z 10) (S754_infinity false) = of_Z 10 /\
  SFeqb (evaluate Scenario.twin_infinite (of_Z 5))
        (clamp_spec (of_Z 0) (of_Z 10) (S754_infinity false)) = false.
Proof. repeat split; vm_compute; reflexivity. Qed.

(** ** Passing through the two points *)

(** In exact arithmetic, an unclamped value inside the limits is
    returned. *)
Lemma exact_evaluate_inside (l : lineEq_t Q) (x0 v : Q) :
  raw_value l x0 == v -> min_output l <= v -> v <= max_output l ->
  evaluate l x0 == v.
Proof.
  intros Hr Hlo Hhi.
  rewrite (evaluate_raw_inside (A:=exact)); [exact Hr | | ]; cbn;
    [unfold Exact.ltb | unfold Exact.gtb];
    apply negb_false_iff, Qle_bool_iff; rewrite Hr; assumption.
Qed.

(** In exact arithmetic, a line that is not vertical has two distinct
    abscissas. *)
Lemma exact_sloped_distinct (l : lineEq_t Q) (p1 p2 : point_t Q)
    (minOut maxOut : Q) :
  isVertical (create l p1 p2 minOut maxOut) = false ->
  ~ x p2 - x p1 == 0.
Proof.
  rewrite (create_isVertical (A:=exact)).
  change (Exact.ltb (Qabs (x p2 - x p1)) Exact.eps = false ->
          ~ x p2 - x p1 == 0).
  unfold Exact.ltb.
  intros Hnv H0. apply negb_false_iff, Qle_bool_iff in Hnv.
  rewrite H0 in Hnv. apply Hnv. reflexivity.
Qed.

(** C5, under exact arithmetic: for a line that [create] did not classify
    vertical, with [y1] and [y2] both within the limits, [evaluate(x1)]
    is [y1] and [evaluate(x2)] is [y2]. *)
Theorem exact_pass_through (l : lineEq_t Q) (p1 p2 : point_t Q)
    (minOut maxOut : Q)
    (Hnv : isVertical (create l p1 p2 minOut maxOut) = false)
    (H1 : minOut <= y p1 /\ y p1 <= maxOut)
    (H2 : minOut <= y p2 /\ y p2 <= maxOut) :
  evaluate (create l p1 p2 minOut maxOut) (x p1) == y p1 /\
  evaluate (create l p1 p2 minOut maxOut) (x p2) == y p2.
Proof.
  pose proof (exact_sloped_distinct l p1 p2 minOut maxOut Hnv) as Hdx.
  rewrite (create_isVertical (A:=exact)) in Hnv.
  rewrite (create_sloped (A:=exact) l p1 p2 minOut maxOut Hnv). cbn zeta.
  destruct H1 as [H1lo H1hi], H2 as [H2lo H2hi].
  split; apply exact_evaluate_inside; cbn; try assumption.
  - ring.
  - field. exact Hdx.
Qed.

(** The 4-20 mA scaling in exact arithmetic maps 4 to -40 and 20 to 85. *)
Lemma exact_pass_through_scale :
  evaluate Scenario.scale_exact 4 == -40 /\
  evaluate Scenario.scale_exact 20 == 85.
Proof.
  apply (exact_pass_through _lineEq (mkPoint 4 (-40)) (mkPoint 20 85) (-40) 85).
  - reflexivity.
  - split; apply Qle_bool_iff; reflexivity.
  - split; apply Qle_bool_iff; reflexivity.
Defined.

(** C5 read on binary32 fails when the slope overflows:
    [create({0, 0}, {0.5, 2^127}, 0, 2^127)] has finite arguments, is not
    vertical, and both ordinates lie within the limits, yet [evaluate]
    returns a NaN at both abscissas, equal to no ordinate under any
    tolerance. *)
Lemma binary32_pass_through_overflow :
  isVertical Scenario.steep_wide = false /\
  (leb (min_output Scenario.steep_wide) (of_Z 0)
   && leb (of_Z 0) (max_output Scenario.steep_wide)
   && leb (min_output Scenario.steep_wide) (lit 1 127)
   && leb (lit 1 127) (max_output Scenario.steep_wide) = true) /\
  evaluate Scenario.steep_wide (of_Z 0) = S754_nan /\
  evaluate Scenario.steep_wide (lit 1 (-1)) = S754_nan /\
  SFeqb (evaluate Scenario.steep_wide (of_Z 0)) (of_Z 0) = false /\
  SFeqb (evaluate Scenario.steep_wide (lit 1 (-1))) (lit 1 127) = false.
Proof. repeat split; vm_compute; reflexivity. Qed.

(** On binary32 the 4-20 mA scaling passes through its two points
    exactly, every intermediate value being representable. *)
Lemma binary32_pass_through_scale :
  evaluate Scenario.scale (of_Z 4) = of_Z (-40) /\
  evaluate Scenario.scale (of_Z 20) = of_Z 85.
Proof. split; vm_compute; reflexivity. Qed.

(** On binary32 the pass-through is approximate in general: the line
    through (1, 0) and (7, 1), limits [-10, 10], yields at 7 the float
    next above 1. *)
Lemma binary32_pass_through_rounded :
  evaluate Scenario.sixth (of_Z 7) = S754_finite false 8388609 (-23) /\
  of_Z 1 = S754_finite false 8388608 (-23).
Proof. split; vm_compute; reflexivity. Qed.

(** ** Reconfiguration *)

Section Reconfigure.

Context {F : Type} {A : FloatArith F}.

(** C7: [create] assigns every field, so the state it leaves depends on
    its arguments only: from any two earlier states, the same call
    leaves the same state, hence the same [evaluate] for every input. *)
Theorem create_discards_previous_state (l l' : lineEq_t F)
    (p1 p2 : point_t F) (minOut maxOut : F) :
  create l p1 p2 minOut maxOut = create l' p1 p2 minOut maxOut /\
  forall x0 : F,
    evaluate (create l p1 p2 minOut maxOut) x0
    = evaluate (create l' p1 p2 minOut maxOut) x0.
Proof.
  assert (He : create l p1 p2 minOut maxOut = create l' p1 p2 minOut maxOut).
  { unfold create.
    destruct (f_lt (f_fabs (f_sub (x p2) (x p1))) f_eps); reflexivity. }
  split; [exact He | intros x0; rewrite He; reflexivity].
Qed.

(** C10: in the state of a fresh object and in every state reached from
    it by calls of [create], a set vertical flag comes with the slope
    0. *)
Theorem reachable_vertical_slope_zero (l : lineEq_t F)
    (Hr : reachable l) (Hv : isVertical l = true) :
  slope l = f_zero.
Proof.
  induction Hr as [ | l p1 p2 minOut maxOut Hr IH].
  - discriminate Hv.
  - rewrite create_isVertical in Hv.
    rewrite (create_vertical l p1 p2 minOut maxOut Hv). reflexivity.
Qed.

End Reconfigure.

(** The vertical line [create({5, 1}, {5, 9}, 0, 100)] is reachable, has
    its flag set, and slope +0. *)
Lemma reachable_vertical_slope_zero_upright :
  reachable Scenario.upright /\ isVertical Scenario.upright = true /\
  slope Scenario.upright = zero.
Proof.
  assert (Hr : reachable Scenario.upright)
    by (unfold Scenario.upright; apply reach_create, reach_new).
  split; [exact Hr | split; [reflexivity | ]].
  exact (reachable_vertical_slope_zero (A:=binary32) Scenario.upright Hr eq_refl).
Defined.

(** ** The 4-20 mA scenario *)

(** C9: after [create({4, -40}, {20, 85}, -40, 85)] the slope is 125/16,
    the intercept -71.25, [evaluate(12.0)] is 22.5, and [evaluate(3.0)] is
    -40.0, the unclamped -47.8125 being below the lower limit. *)
Theorem scale_evaluate :
  slope Scenario.scale = lit 125 (-4) /\
  y_intercept Scenario.scale = lit (-285) (-2) /\
  evaluate Scenario.scale (of_Z 12) = lit 45 (-1) /\
  raw_value Scenario.scale (of_Z 3) = lit (-765) (-4) /\
  ltb (raw_value Scenario.scale (of_Z 3)) (min_output Scenario.scale) = true /\
  evaluate Scenario.scale (of_Z 3) = of_Z (-40).
Proof. repeat split; vm_compute; reflexivity. Qed.

(** The same scenario in exact arithmetic. *)
Lemma scale_exact_evaluate :
  slope Scenario.scale_exact == 125 # 16 /\
  y_intercept Scenario.scale_exact == - (285 # 4) /\
  evaluate Scenario.scale_exact 12 == 45 # 2 /\
  raw_value Scenario.scale_exact 3 == - (765 # 16) /\
  evaluate Scenario.scale_exact 3 == -40.
Proof. repeat split; vm_compute; reflexivity. Qed.

(** ** The order of binary32 comparison is transitive *)

Ltac split_compares :=
  repeat match goal with
  | |- context [Pos.compare_cont Eq ?a ?b] =>
      change (Pos.compare_cont Eq a b) with (Pos.compare a b)
  end;
  repeat match goal with
  | |- context [(?a ?= ?b)%Z] => destruct (Z.compare_spec a b)
  | |- context [(?a ?= ?b)%positive] => destruct (Pos.compare_spec a b)
  end.

Ltac order_cases a b c :=
  destruct a as [[ | ]|[ | ]| |[ | ] ? ?], b as [[ | ]|[ | ]| |[ | ] ? ?],
    c as [[ | ]|[ | ]| |[ | ] ? ?];
  simpl; try (intros; congruence);
  split_compares; simpl; intros; try congruence; try lia.

Lemma leb_trans (a b c : float32) :
  leb a b = true -> leb b c = true -> leb a c = true.
Proof. unfold leb, SFleb. order_cases a b c. Qed.

Lemma ltb_leb_trans (a b c : float32) :
  ltb a b = true -> leb b c = true -> ltb a c = true.
Proof. unfold ltb, leb, SFltb, SFleb. order_cases a b c. Qed.

Lemma leb_ltb_trans (a b c : float32) :
  leb a b = true -> ltb b c = true -> ltb a c = true.
Proof. unfold ltb, leb, SFltb, SFleb. order_cases a b c. Qed.

(** [a > b] is [b < a]. *)
Lemma gtb_ltb (a b : float32) : gtb a b = ltb b a.
Proof.
  unfold gtb, ltb, SFltb. rewrite (compare_antisym b a).
  destruct (SFcompare a b) as [[ | | ]|]; reflexivity.
Qed.

Lemma ltb_not_nan (a b : float32) :
  ltb a b = true -> is_nan a = false /\ is_nan b = false.
Proof.
  unfold ltb, SFltb. destruct a, b; simpl; intros H; try discriminate; auto.
Qed.

(** ** Edge behaviour of the clamp on binary32 *)

(** X1: with limits that are numbers, [evaluate] returns a NaN exactly
    when the unclamped value is a NaN. *)
Theorem evaluate_nan_iff (l : lineEq_t float32) (x0 : float32)
    (Hlo : is_nan (min_output l) = false)
    (Hhi : is_nan (max_output l) = false) :
  is_nan (evaluate l x0) = is_nan (raw_value l x0).
Proof.
  rewrite evaluate_unfold. unfold clamp_spec.
  destruct (is_nan (raw_value l x0)) eqn:Hr.
  - destruct (raw_value l x0); try discriminate Hr. reflexivity.
  - destruct (f_lt _ _); [exact Hlo | ].
    destruct (f_gt _ _); [exact Hhi | exact Hr].
Qed.

Lemma evaluate_nan_iff_steep :
  is_nan (evaluate Scenario.steep (of_Z 1)) = true /\
  is_nan (evaluate Scenario.scale (of_Z 12)) = false.
Proof.
  split.
  - rewrite (evaluate_nan_iff Scenario.steep (of_Z 1)); reflexivity.
  - rewrite (evaluate_nan_iff Scenario.scale (of_Z 12)); reflexivity.
Defined.

(** X2: with inverted limits ([min_output > max_output]) the unclamped
    value, when it is a number, is never returned: the result is
    [min_output] if the unclamped value is below it, and [max_output] in
    every other case. *)
Theorem inverted_limits_never_raw (l : lineEq_t float32) (x0 : float32)
    (Hinv : gtb (min_output l) (max_output l) = true)
    (Hn : is_nan (raw_value l x0) = false) :
  evaluate l x0 =
    if ltb (raw_value l x0) (min_output l) then min_output l
    else max_output l.
Proof.
  rewrite evaluate_unfold. unfold clamp_spec. cbn [f_lt f_gt binary32].
  destruct (ltb (raw_value l x0) (min_output l)) eqn:Hlt; [reflexivity | ].
  rewrite gtb_ltb in Hinv.
  destruct (ltb_not_nan _ _ Hinv) as [_ Hmin].
  pose proof (ltb_false_leb _ _ Hn Hmin Hlt) as Hge.
  rewrite gtb_ltb, (ltb_leb_trans _ _ _ Hinv Hge). reflexivity.
Qed.

Lemma inverted_limits_never_raw_scenario :
  evaluate Scenario.inverted (of_Z 20) = of_Z 0 /\
  evaluate Scenario.inverted (lit 1 (-1)) = of_Z 10.
Proof.
  split.
  - exact (inverted_limits_never_raw Scenario.inverted (of_Z 20)
             eq_refl eq_refl).
  - exact (inverted_limits_never_raw Scenario.inverted (lit 1 (-1))
             eq_refl eq_refl).
Defined.

(** X3: with the limits [-infinity] and [+infinity] nothing is clamped:
    [evaluate] returns the unclamped value, NaN included. *)
Theorem unbounded_limits_no_clamp (l : lineEq_t float32) (x0 : float32)
    (Hlo : min_output l = S754_infinity true)
    (Hhi : max_output l = S754_infinity false) :
  evaluate l x0 = raw_value l x0.
Proof.
  apply (evaluate_raw_inside (A:=binary32)).
  - rewrite Hlo. destruct (raw_value l x0) as [s|[ | ]| |s m e]; reflexivity.
  - rewrite Hhi. destruct (raw_value l x0) as [s|[ | ]| |s m e]; reflexivity.
Qed.

Lemma unbounded_limits_no_clamp_scale :
  evaluate
    (create _lineEq (Scenario.pt (of_Z 4) (of_Z (-40)))
       (Scenario.pt (of_Z 20) (of_Z 85))
       (S754_infinity true) (S754_infinity false)) (of_Z 3)
  = lit (-765) (-4).
Proof.
  rewrite unbounded_limits_no_clamp; reflexivity.
Defined.

(** X4: a NaN limit switches its test off.  With [min_output] a NaN only
    the upper limit clamps; with [max_output] a NaN only the lower one
    does. *)
Theorem nan_limit_disables_test (l : lineEq_t float32) (x0 : float32) :
  (min_output l = S754_nan ->
   evaluate l x0 =
     if gtb (raw_value l x0) (max_output l) then max_output l
     else raw_value l x0) /\
  (max_output l = S754_nan ->
   evaluate l x0 =
     if ltb (raw_value l x0) (min_output l) then min_output l
     else raw_value l x0).
Proof.
  rewrite evaluate_unfold. unfold clamp_spec. cbn [f_lt f_gt binary32].
  split; intros ->.
  - replace (ltb (raw_value l x0) S754_nan) with false; [reflexivity | ].
    destruct (raw_value l x0); reflexivity.
  - replace (gtb (raw_value l x0) S754_nan) with false; [reflexivity | ].
    destruct (raw_value l x0); reflexivity.
Qed.

Lemma nan_limit_disables_test_scale :
  evaluate
    (create _lineEq (Scenario.pt (of_Z 4) (of_Z (-40)))
       (Scenario.pt (of_Z 20) (of_Z 85)) S754_nan (of_Z 85)) (of_Z 3)
  = lit (-765) (-4) /\
  evaluate
    (create _lineEq (Scenario.pt (of_Z 4) (of_Z (-40)))
       (Scenario.pt (of_Z 20) (of_Z 85)) (of_Z (-40)) S754_nan) (of_Z 30)
  = lit 2610 (-4).
Proof.
  split.
  - exact (proj1 (nan_limit_disables_test
                    (create _lineEq (Scenario.pt (of_Z 4) (of_Z (-40)))
                       (Scenario.pt (of_Z 20) (of_Z 85)) S754_nan (of_Z 85))
                    (of_Z 3)) eq_refl).
  - exact (proj2 (nan_limit_disables_test
                    (create _lineEq (Scenario.pt (of_Z 4) (of_Z (-40)))
                       (Scenario.pt (of_Z 20) (of_Z 85)) (of_Z (-40)) S754_nan)
                    (of_Z 30)) eq_refl).
Defined.

(** X5: with ordered limits the clamp keeps the order of the unclamped
    values: if the unclamped value at [x0] is at most the one at [x1], so
    are the results. *)
Theorem evaluate_monotone_in_raw (l : lineEq_t float32) (x0 x1 : float32)
    (Hb : leb (min_output l) (max_output l) = true)
    (Hr : leb (raw_value l x0) (raw_value l x1) = true) :
  leb (evaluate l x0) (evaluate l x1) = true.
Proof.
  destruct (leb_not_nan _ _ Hr) as [Hn0 Hn1].
  destruct (leb_not_nan _ _ Hb) as [Hlo Hhi].
  destruct (clamp_spec_within _ _ _ Hb Hn1) as [Hlo1 Hhi1].
  rewrite !evaluate_unfold in *. unfold clamp_spec in *.
  cbn [f_lt f_gt binary32] in *.
  destruct (ltb (raw_value l x0) (min_output l)) eqn:Hlt0; [exact Hlo1 | ].
  pose proof (ltb_false_leb _ _ Hn0 Hlo Hlt0) as Hge0.
  pose proof (leb_trans _ _ _ Hge0 Hr) as Hge1.
  rewrite (leb_ltb_false _ _ Hge1) in *.
  destruct (gtb (raw_value l x0) (max_output l)) eqn:Hgt0.
  - rewrite gtb_ltb in Hgt0.
    pose proof (ltb_leb_trans _ _ _ Hgt0 Hr) as Hgt1.
    rewrite gtb_ltb, Hgt1. apply leb_refl. exact Hhi.
  - destruct (gtb (raw_value l x1) (max_output l)) eqn:Hgt1.
    + apply gtb_false_leb; assumption.
    + exact Hr.
Qed.

Lemma evaluate_monotone_in_raw_scale :
  leb (evaluate Scenario.scale (of_Z 3)) (evaluate Scenario.scale (of_Z 12))
  = true.
Proof.
  apply (evaluate_monotone_in_raw Scenario.scale (of_Z 3) (of_Z 12));
    reflexivity.
Defined.

(** ** Edge behaviour of [create] on binary32 *)

Lemma sub_nan_cases (a b : float32) (s : bool) :
  is_nan a = true \/ is_nan b = true \/
  (a = S754_infinity s /\ b = S754_infinity s) ->
  is_nan (sub b a) = true.
Proof.
  intros [Ha | [Hb | [-> ->]]].
  - destruct a; try discriminate Ha. destruct b; reflexivity.
  - destruct b; try discriminate Hb. reflexivity.
  - destruct s; reflexivity.
Qed.

(** X6: when an abscissa is a NaN, or both abscissas are the same
    infinity, [create] does not classify the line vertical, and
    [evaluate] then returns a NaN for every input and every limits. *)
Theorem nan_abscissa_poisons (l : lineEq_t float32) (p1 p2 : point_t float32)
    (minOut maxOut x0 : float32) (s : bool)
    (Hx : is_nan (x p1) = true \/ is_nan (x p2) = true \/
          (x p1 = S754_infinity s /\ x p2 = S754_infinity s)) :
  isVertical (create l p1 p2 minOut maxOut) = false /\
  evaluate (create l p1 p2 minOut maxOut) x0 = S754_nan.
Proof.
  pose proof (sub_nan_cases _ _ s Hx) as Hdx.
  assert (Hflag : ltb (fabs (sub (x p2) (x p1))) eps = false)
    by (destruct (sub (x p2) (x p1)); try discriminate Hdx; reflexivity).
  split; [rewrite create_isVertical_b32; exact Hflag | ].
  rewrite (create_sloped (A:=binary32) l p1 p2 minOut maxOut Hflag).
  cbn zeta. apply evaluate_nan. unfold raw_value.
  cbn [isVertical slope y_intercept f_add f_mul f_sub f_div binary32].
  destruct (sub (x p2) (x p1)); try discriminate Hdx.
  replace (div (sub (y p2) (y p1)) S754_nan) with S754_nan
    by (destruct (sub (y p2) (y p1)); reflexivity).
  replace (sub (y p1) (mul S754_nan (x p1))) with S754_nan
    by (destruct (y p1); reflexivity).
  destruct (mul S754_nan x0); reflexivity.
Qed.

Lemma nan_abscissa_poisons_same_infinity :
  isVertical
    (create _lineEq (Scenario.pt (S754_infinity false) (of_Z 1))
       (Scenario.pt (S754_infinity false) (of_Z 1)) (of_Z 0) (of_Z 10))
  = false /\
  evaluate
    (create _lineEq (Scenario.pt (S754_infinity false) (of_Z 1))
       (Scenario.pt (S754_infinity false) (of_Z 1)) (of_Z 0) (of_Z 10))
    (of_Z 5)
  = S754_nan.
Proof.
  apply (nan_abscissa_poisons _lineEq
           (Scenario.pt (S754_infinity false) (of_Z 1))
           (Scenario.pt (S754_infinity false) (of_Z 1))
           (of_Z 0) (of_Z 10) (of_Z 5) false).
  right; right; split; reflexivity.
Defined.

(** Only finite abscissas can be closer than [1e-6f]. *)
Lemma close_abscissas_finite (a b : float32) :
  ltb (fabs (sub b a)) eps = true ->
  is_finite a = true /\ is_finite b = true.
Proof.
  destruct a as [sa|sa| |sa ma ea], b as [sb|sb| |sb mb eb];
    try (intros _; split; reflexivity);
    try (destruct sa; intros H; discriminate H);
    try (destruct sb; intros H; discriminate H);
    try (destruct sa, sb; intros H; discriminate H);
    intros H; discriminate H.
Qed.

(** X7: a line that [create] classified vertical has two finite
    abscissas, so with ordered limits [evaluate] lies within the limits
    for every input: a vertical line never yields a NaN. *)
Theorem vertical_within_limits (l : lineEq_t float32) (p1 p2 : point_t float32)
    (minOut maxOut x0 : float32)
    (Hv : isVertical (create l p1 p2 minOut maxOut) = true)
    (Hb : leb minOut maxOut = true) :
  is_finite (x p1) = true /\ is_finite (x p2) = true /\
  leb minOut (evaluate (create l p1 p2 minOut maxOut) x0) = true /\
  leb (evaluate (create l p1 p2 minOut maxOut) x0) maxOut = true.
Proof.
  rewrite create_isVertical_b32 in Hv.
  destruct (close_abscissas_finite _ _ Hv) as [H1 H2].
  split; [exact H1 | split; [exact H2 | ]].
  rewrite (create_vertical (A:=binary32) l p1 p2 minOut maxOut Hv).
  rewrite evaluate_unfold.
  cbn [min_output max_output raw_value isVertical y_intercept].
  apply clamp_spec_within; [exact Hb | ].
  destruct (x p1); try discriminate H1; reflexivity.
Qed.

Lemma vertical_within_limits_upright :
  leb (of_Z 0) (evaluate Scenario.upright (of_Z 999)) = true /\
  leb (evaluate Scenario.upright (of_Z 999)) (of_Z 100) = true.
Proof.
  exact (proj2 (proj2 (vertical_within_limits _lineEq
           (Scenario.pt (of_Z 5) (of_Z 1)) (Scenario.pt (of_Z 5) (of_Z 9))
           (of_Z 0) (of_Z 100) (of_Z 999) eq_refl eq_refl))).
Defined.

(** X8: in the state of a fresh object and in every state reached from
    it by calls of [create], a set vertical flag comes with a finite
    intercept field (the abscissa of the line). *)
Theorem reachable_vertical_intercept_finite (l : lineEq_t float32)
    (Hr : reachable l) (Hv : isVertical l = true) :
  is_finite (y_intercept l) = true.
Proof.
  induction Hr as [ | l p1 p2 minOut maxOut Hr IH].
  - discriminate Hv.
  - rewrite create_isVertical_b32 in Hv.
    rewrite (create_vertical (A:=binary32) l p1 p2 minOut maxOut Hv).
    exact (proj1 (close_abscissas_finite _ _ Hv)).
Qed.

Lemma reachable_vertical_intercept_finite_upright :
  is_finite (y_intercept Scenario.upright) = true.
Proof.
  apply (reachable_vertical_intercept_finite Scenario.upright).
  - unfold Scenario.upright. apply reach_create, reach_new.
  - reflexivity.
Defined.

(** ** The order of the two points *)

Lemma abs_binary_round (s : bool) (m : positive) (e : Z) :
  SFabs (binary_round prec emax s m e)
  = SFabs (binary_round prec emax false m e).
Proof.
  unfold binary_round. destruct (shl_align _ _ _) as [mz ez].
  unfold binary_round_aux.
  destruct (shr_fexp prec emax (Z.pos mz) ez loc_Exact) as [mrs1 e1].
  destruct (shr_fexp prec emax _ e1 loc_Exact) as [mrs2 e2].
  destruct (shr_m mrs2); try reflexivity.
  destruct (e2 <=? emax - prec)%Z; reflexivity.
Qed.

Lemma abs_binary_normalize_opp (z e : Z) :
  SFabs (binary_normalize prec emax (- z) e false)
  = SFabs (binary_normalize prec emax z e false).
Proof.
  destruct z as [ | p | p]; simpl; try reflexivity.
  - apply abs_binary_round.
  - symmetry. apply abs_binary_round.
Qed.

(** The magnitude of a binary32 difference does not depend on the order
    of its operands. *)
Lemma fabs_sub_comm (a b : float32) : fabs (sub a b) = fabs (sub b a).
Proof.
  destruct a as [sa|sa| |sa ma ea], b as [sb|sb| |sb mb eb];
    try reflexivity;
    try (destruct sa, sb; reflexivity).
  unfold fabs, sub, SFsub. rewrite (Z.min_comm eb ea).
  set (za := cond_Zopp sa _). set (zb := cond_Zopp sb _).
  replace (zb - za)%Z with (- (za - zb))%Z by lia.
  symmetry. apply abs_binary_normalize_opp.
Qed.

(** X9: whether [create] classifies a line vertical does not depend on
    the order in which the two points are given (nor on the previous
    state or the limits). *)
Theorem vertical_flag_symmetric (l l' : lineEq_t float32)
    (p1 p2 : point_t float32) (minOut maxOut minOut' maxOut' : float32) :
  isVertical (create l p1 p2 minOut maxOut)
  = isVertical (create l' p2 p1 minOut' maxOut').
Proof.
  rewrite !create_isVertical_b32, (fabs_sub_comm (x p2) (x p1)).
  reflexivity.
Qed.

(** ** Horizontal lines *)

Lemma sub_finite_number (a b : float32) :
  is_finite a = true -> is_finite b = true -> is_nan (sub a b) = false.
Proof.
  destruct a as [sa|sa| |sa ma ea], b as [sb|sb| |sb mb eb]; simpl;
    intros Ha Hb; try discriminate; try reflexivity.
  - destruct sa, sb; reflexivity.
  - apply binary_normalize_number.
Qed.

(** A zero divided by a number that fails the vertical test is a zero. *)
Lemma div_zero_sloped (d : float32) :
  is_nan d = false -> ltb (fabs d) eps = false ->
  exists s, div zero d = S754_zero s.
Proof.
  destruct d as [s|s| |s m e]; intros Hn Hd; try discriminate.
  - exists (xorb false s). reflexivity.
  - exists (xorb false s). reflexivity.
Qed.

(** X10: a horizontal line is evaluated without rounding.  When the two
    points have the same finite non-zero ordinate [y1] and finite
    abscissas that [create] does not classify vertical, [evaluate]
    returns for every finite input exactly [y1] passed through the
    clamp. *)
Theorem horizontal_line_exact (l : lineEq_t float32) (p1 p2 : point_t float32)
    (minOut maxOut x0 : float32) (s : bool) (m : positive) (e : Z)
    (Hy1 : y p1 = S754_finite s m e) (Hy2 : y p2 = y p1)
    (Hx1 : is_finite (x p1) = true) (Hx2 : is_finite (x p2) = true)
    (Hnv : isVertical (create l p1 p2 minOut maxOut) = false)
    (Hx0 : is_finite x0 = true) :
  evaluate (create l p1 p2 minOut maxOut) x0
  = clamp_spec minOut maxOut (y p1).
Proof.
  rewrite create_isVertical_b32 in Hnv.
  rewrite (create_sloped (A:=binary32) l p1 p2 minOut maxOut Hnv).
  cbn zeta. rewrite evaluate_unfold. unfold raw_value.
  cbn [isVertical slope y_intercept min_output max_output
       f_add f_mul f_sub f_div binary32].
  rewrite Hy2, (sub_diag_finite (y p1)) by (rewrite Hy1; reflexivity).
  destruct (div_zero_sloped _ (sub_finite_number _ _ Hx2 Hx1) Hnv) as [sz ->].
  rewrite Hy1.
  destruct (x p1) as [s1|s1| |s1 m1 e1]; try discriminate Hx1;
    destruct x0 as [s0|s0| |s0 m0 e0]; try discriminate Hx0;
    reflexivity.
Qed.

Lemma horizontal_line_exact_level :
  evaluate
    (create _lineEq (Scenario.pt (of_Z 0) (of_Z 3))
       (Scenario.pt (of_Z 1) (of_Z 3)) (of_Z 0) (of_Z 10)) (lit 7 (-2))
  = of_Z 3.
Proof.
  exact (horizontal_line_exact _lineEq
           (Scenario.pt (of_Z 0) (of_Z 3)) (Scenario.pt (of_Z 1) (of_Z 3))
           (of_Z 0) (of_Z 10) (lit 7 (-2)) false 12582912 (-22)
           eq_refl eq_refl eq_refl eq_refl eq_refl eq_refl).
Defined.

(** ** The example program of the README *)

Lemma reads_low_from_spec (fuel : nat) :
  forall n : Z, Readme.reads_low_from fuel n = true ->
  forall k : Z, (n <= k < n + Z.of_nat fuel)%Z -> Readme.reads_low k = true.
Proof.
  induction fuel as [ | fuel IH]; intros n H k Hk.
  - simpl in Hk. lia.
  - cbn [Readme.reads_low_from] in H. apply andb_prop in H.
    destruct H as [Hn Hrest].
    destruct (Z.eq_dec k n) as [-> | Hne]; [exact Hn | ].
    apply (IH (n + 1)%Z Hrest). lia.
Qed.

Lemma reads_low_12_bit : Readme.reads_low_from 4096 0 = true.
Proof. vm_compute. reflexivity. Qed.

(** X15: in the example program of the README, [adc_to_mA] with the 3.3 V
    reference and the 165 ohm resistor returns less than 4 for every
    count of the 12-bit range 0..4095 the program assumes, so the
    temperature it computes is the lower limit, -40, for every count. *)
Theorem readme_temperature_saturates (adc_raw : Z)
    (Hr : (0 <= adc_raw <= 4095)%Z) :
  ltb (Readme.adc_to_mA adc_raw Readme.ref_voltage Readme.sense_resistor)
      (of_Z 4) = true /\
  Readme.temperature adc_raw = of_Z (-40).
Proof.
  assert (H : Readme.reads_low adc_raw = true)
    by (apply (reads_low_from_spec 4096 0 reads_low_12_bit); lia).
  unfold Readme.reads_low in H. cbn zeta in H. apply andb_prop in H.
  destruct H as [H4 Hmin]. split; [exact H4 | ].
  unfold Readme.temperature. cbn zeta.
  rewrite evaluate_unfold. unfold clamp_spec. cbn [f_lt binary32].
  rewrite Hmin. reflexivity.
Qed.

(** The count 2048 of the README. *)
Lemma readme_temperature_saturates_2048 :
  Readme.temperature 2048 = of_Z (-40).
Proof.
  apply (readme_temperature_saturates 2048). lia.
Defined.

(** ** Inputs that are not finite *)

(** X16: on a line that is not vertical, a NaN input gives a NaN result,
    whatever the limits. *)
Theorem nan_input_poisons (l : lineEq_t float32)
    (Hnv : isVertical l = false) :
  evaluate l S754_nan = S754_nan.
Proof.
  apply evaluate_nan. unfold raw_value. rewrite Hnv.
  cbn [f_add f_mul binary32].
  replace (mul (slope l) S754_nan) with S754_nan
    by (destruct (slope l); reflexivity).
  reflexivity.
Qed.

Lemma nan_input_poisons_scale : evaluate Scenario.scale S754_nan = S754_nan.
Proof. apply (nan_input_poisons Scenario.scale). reflexivity. Defined.

(** X17: an infinite input saturates.  On a line that is not vertical,
    with a finite non-zero slope, a finite intercept and limits that are
    numbers, [evaluate] at an infinity returns [max_output] when the
    infinity has the sign of the slope and [min_output] otherwise. *)
Theorem infinite_input_saturates (l : lineEq_t float32)
    (ss si : bool) (m : positive) (e : Z)
    (Hnv : isVertical l = false)
    (Hs : slope l = S754_finite ss m e)
    (Hi : is_finite (y_intercept l) = true)
    (Hlo : is_nan (min_output l) = false)
    (Hhi : is_nan (max_output l) = false) :
  evaluate l (S754_infinity si)
  = if xorb ss si then min_output l else max_output l.
Proof.
  rewrite evaluate_unfold. unfold raw_value, clamp_spec.
  rewrite Hnv, Hs. cbn [f_add f_mul f_lt f_gt binary32].
  assert (Hraw : add (mul (S754_finite ss m e) (S754_infinity si))
                     (y_intercept l) = S754_infinity (xorb ss si))
    by (destruct (y_intercept l); try discriminate Hi; reflexivity).
  rewrite Hraw.
  destruct (min_output l) as [s1|s1| |s1 m1 e1]; try discriminate Hlo;
    destruct (max_output l) as [s2|s2| |s2 m2 e2]; try discriminate Hhi;
    destruct ss, si; simpl;
    repeat match goal with b : bool |- _ => destruct b end;
    reflexivity.
Qed.

Lemma infinite_input_saturates_scale :
  evaluate Scenario.scale (S754_infinity false) = of_Z 85 /\
  evaluate Scenario.scale (S754_infinity true) = of_Z (-40).
Proof.
  split.
  - exact (infinite_input_saturates Scenario.scale false false
             16384000 (-21) eq_refl eq_refl eq_refl eq_refl eq_refl).
  - exact (infinite_input_saturates Scenario.scale false true
             16384000 (-21) eq_refl eq_refl eq_refl eq_refl eq_refl).
Defined.

(** The 4-20 mA scaling has finite parameters: every finite input is
    within its limits. *)
Lemma evaluate_finite_within_limits_scale :
  leb (of_Z (-40)) (evaluate Scenario.scale (of_Z 1000)) = true /\
  leb (evaluate Scenario.scale (of_Z 1000)) (of_Z 85) = true.
Proof.
  apply (evaluate_finite_within_limits Scenario.scale (of_Z 1000));
    reflexivity.
Defined.
